(** * app/config.py: configuration assembly and presence validation

    A shallow embedding of the configuration module of the late-interaction
    RAG system.  The module reads the process environment ([os.environ],
    after [load_dotenv()] has run on line 12), builds one dataclass record
    per external service, groups them in [Config], and offers
    [Config.validate], which reports the mandatory settings that are empty.

    Python values are modelled as follows.
    - [os.environ] is a finite map from variable names to strings.  A
      variable may be unset, set to the empty string, or set to a non-empty
      string; the three cases are kept apart.
    - A dataclass is a record; its generated [__init__] takes every field
      as an optional argument ([None] = argument not supplied) and raises
      [TypeError] when a field without default is not supplied.
    - Class-level defaults are evaluated when the class body runs, not when
      an instance is built.  The only default that is not a literal is
      [ModelConfig.device]; the value computed by the class body is kept in
      [ModelConfig.cls] and consulted by [ModelConfig.init].
    - [print] appends one line to the standard output of the process. *)

From Stdlib Require Import ZArith.
From stdpp Require Import gmap strings list.

Local Open Scope Z_scope.

(** ** Python runtime: exceptions, truthiness, [os.getenv], [str.join] *)

Inductive exn : Type :=
  | TypeError.

Inductive result (A : Type) : Type :=
  | Ok (a : A)
  | Raise (e : exn).

Arguments Ok {A} a.
Arguments Raise {A} e.

#[global] Instance result_ret : MRet result := λ A a, Ok a.
#[global] Instance result_bind : MBind result := λ A B f m,
  match m with
  | Ok a => f a
  | Raise e => Raise e
  end.

(** [bool(s)] for a [str]: only the empty string is falsy. *)
Definition str_bool (s : string) : bool :=
  match s with
  | EmptyString => false
  | String _ _ => true
  end.

(** [bool(x)] for [x : Optional[str]]: [None] is falsy. *)
Definition optional_str_bool (o : option string) : bool :=
  match o with
  | None => false
  | Some s => str_bool s
  end.

(** [bool(l)] for a list: only the empty list is falsy. *)
Definition list_bool {A : Type} (l : list A) : bool :=
  match l with
  | [] => false
  | _ :: _ => true
  end.

(** [os.environ.get(key)] *)
Definition environ_get (os_environ : gmap string string) (key : string)
  : option string :=
  os_environ !! key.

(** [os.getenv(key, default)] *)
Definition getenv (os_environ : gmap string string) (key dflt : string)
  : string :=
  match os_environ !! key with
  | Some v => v
  | None => dflt
  end.

(** [sep.join(l)] *)
Fixpoint join (sep : string) (l : list string) : string :=
  match l with
  | [] => ""
  | [x] => x
  | x :: rest => x +:+ sep +:+ join sep rest
  end.

(** [x in l] for a list of strings. *)
Definition str_in (x : string) (l : list string) : bool :=
  existsb (String.eqb x) l.

(** A required dataclass argument: missing means [TypeError]. *)
Definition required {A : Type} (arg : option A) : result A :=
  match arg with
  | Some a => Ok a
  | None => Raise TypeError
  end.

(** An argument with a default. *)
Definition optional {A : Type} (arg : option A) (dflt : A) : A :=
  match arg with
  | Some a => a
  | None => dflt
  end.

(** ** The dataclasses (lines 22-61) *)

Module AzureAISearchConfig.
Record t : Type := mk {
  endpoint : string;
  api_key : string;
  index_name : string
}.

Definition init (endpoint api_key index_name : option string) : result t :=
  endpoint ← required endpoint;
  api_key ← required api_key;
  mret (mk endpoint api_key (optional index_name "rag-index")).
End AzureAISearchConfig.

Module AzureDocIntelligenceConfig.
Record t : Type := mk {
  endpoint : string;
  api_key : string
}.

Definition init (endpoint api_key : option string) : result t :=
  endpoint ← required endpoint;
  api_key ← required api_key;
  mret (mk endpoint api_key).
End AzureDocIntelligenceConfig.

Module AzureOpenAIConfig.
Record t : Type := mk {
  endpoint : string;
  api_key : string;
  deployment_name : string;
  api_version : string
}.

Definition init (endpoint api_key deployment_name api_version : option string)
  : result t :=
  endpoint ← required endpoint;
  api_key ← required api_key;
  mret (mk endpoint api_key
           (optional deployment_name "gpt-4o")
           (optional api_version "2024-02-01")).
End AzureOpenAIConfig.

Module ModelConfig.
Record t : Type := mk {
  model_choice : string;
  device : string;
  batch_size : Z
}.

(** What the class body leaves behind: the value of the one default that
    is an expression rather than a literal. *)
Record cls : Type := mk_cls {
  device_default : string
}.

(** Running the class body (lines 46-51) in environment [os_environ]. *)
Definition class_body (os_environ : gmap string string) : cls :=
  mk_cls (if optional_str_bool (environ_get os_environ "CUDA_AVAILABLE")
          then "cuda" else "cpu").

Definition init (c : cls) (model_choice device : option string)
    (batch_size : option Z) : result t :=
  mret (mk (optional model_choice "florence2")
           (optional device (device_default c))
           (optional batch_size 1)).
End ModelConfig.

Module SystemConfig.
Record t : Type := mk {
  temp_dir : string;
  patch_matrix_dir : string;
  manifest_dir : string;
  max_pages_per_doc : Z;
  default_k : Z
}.

Definition init (temp_dir patch_matrix_dir manifest_dir : option string)
    (max_pages_per_doc default_k : option Z) : result t :=
  mret (mk (optional temp_dir "./temp")
           (optional patch_matrix_dir "./patch_matrices")
           (optional manifest_dir "./manifests")
           (optional max_pages_per_doc 100)
           (optional default_k 10)).
End SystemConfig.

(** ** [Config] (lines 64-119) *)

Module Config.
Record t : Type := mk {
  ai_search : AzureAISearchConfig.t;
  doc_intelligence : AzureDocIntelligenceConfig.t;
  openai : AzureOpenAIConfig.t;
  model : ModelConfig.t;
  system : SystemConfig.t
}.

(** [Config.__init__] (lines 67-95), run in environment [os_environ] with
    the class [ModelConfig] as its class body left it. *)
Definition init (ModelConfig_cls : ModelConfig.cls)
    (os_environ : gmap string string) : result t :=
  ai_search ← AzureAISearchConfig.init
    (Some (getenv os_environ "AZURE_SEARCH_ENDPOINT" ""))
    (Some (getenv os_environ "AZURE_SEARCH_API_KEY" ""))
    None;
  doc_intelligence ← AzureDocIntelligenceConfig.init
    (Some (getenv os_environ "AZURE_DOC_INTELLIGENCE_ENDPOINT" ""))
    (Some (getenv os_environ "AZURE_DOC_INTELLIGENCE_API_KEY" ""));
  openai ← AzureOpenAIConfig.init
    (Some (getenv os_environ "AZURE_OPENAI_ENDPOINT" ""))
    (Some (getenv os_environ "AZURE_OPENAI_API_KEY" ""))
    (Some (getenv os_environ "AZURE_OPENAI_MODEL" "o4-mini"))
    None;
  let model_choice_env := getenv os_environ "MODEL_CHOICE" "florence2" in
  let model_choice :=
    if negb (str_in model_choice_env ["florence2"; "phi3-vision"])
    then "florence2" else model_choice_env in
  model ← ModelConfig.init ModelConfig_cls (Some model_choice) None None;
  system ← SystemConfig.init None None None None None;
  mret (mk ai_search doc_intelligence openai model system).
End Config.

(** ** The process: the instance [self] refers to, and standard output *)

Record process : Type := mk_process {
  instance : Config.t;
  stdout : list string
}.

Definition Proc (A : Type) : Type := process → result A * process.

#[global] Instance Proc_ret : MRet Proc := λ A a p, (Ok a, p).
#[global] Instance Proc_bind : MBind Proc := λ A B f m p,
  match m p with
  | (Ok a, p') => f a p'
  | (Raise e, p') => (Raise e, p')
  end.

Definition get_self : Proc Config.t := λ p, (Ok (instance p), p).

Definition print (line : string) : Proc unit :=
  λ p, (Ok tt, mk_process (instance p) (stdout p ++ [line])).

(** The body of the [for] loop of [validate] (lines 111-113): one
    iteration, on the list [missing_fields] built so far. *)
Definition collect_missing (missing_fields : list string)
    (field : string * string) : list string :=
  let '(value, field_name) := field in
  if negb (str_bool value) then missing_fields ++ [field_name]
  else missing_fields.

(** The local list [required_fields] of [validate] (lines 98-107): the
    six (value, name) pairs, in the order they are written. *)
Definition required_fields (self : Config.t) : list (string * string) := [
  (AzureAISearchConfig.endpoint (Config.ai_search self),
     "AZURE_SEARCH_ENDPOINT");
  (AzureAISearchConfig.api_key (Config.ai_search self),
     "AZURE_SEARCH_API_KEY");
  (AzureDocIntelligenceConfig.endpoint (Config.doc_intelligence self),
     "AZURE_DOC_INTELLIGENCE_ENDPOINT");
  (AzureDocIntelligenceConfig.api_key (Config.doc_intelligence self),
     "AZURE_DOC_INTELLIGENCE_API_KEY");
  (AzureOpenAIConfig.endpoint (Config.openai self),
     "AZURE_OPENAI_ENDPOINT");
  (AzureOpenAIConfig.api_key (Config.openai self),
     "AZURE_OPENAI_API_KEY")
].

(** [Config.validate] (lines 97-119). *)
Definition validate : Proc bool :=
  self ← get_self;
  let missing_fields := foldl collect_missing [] (required_fields self) in
  if list_bool missing_fields then
    _ ← print ("Missing required environment variables: "
               +:+ join ", " missing_fields);
    mret false
  else
    mret true.

(** ** The module body (lines 12-123)

    The class bodies run first, then line 123 builds the global instance
    [config = Config()]; both see the same environment. *)

Record module_globals : Type := mk_module {
  ModelConfig_cls : ModelConfig.cls;
  config : Config.t
}.

Definition module_body (os_environ : gmap string string)
  : result module_globals :=
  let ModelConfig_cls := ModelConfig.class_body os_environ in
  config ← Config.init ModelConfig_cls os_environ;
  mret (mk_module ModelConfig_cls config).

(** ** Vocabulary of the specification *)

(** The six mandatory variables, in the order [validate] checks them. *)
Definition mandatory_variables : list string := [
  "AZURE_SEARCH_ENDPOINT";
  "AZURE_SEARCH_API_KEY";
  "AZURE_DOC_INTELLIGENCE_ENDPOINT";
  "AZURE_DOC_INTELLIGENCE_API_KEY";
  "AZURE_OPENAI_ENDPOINT";
  "AZURE_OPENAI_API_KEY"
].

(** A variable is unset when the environment has no entry for it. *)
Definition is_unset (os_environ : gmap string string) (key : string) : bool :=
  match os_environ !! key with
  | None => true
  | Some _ => false
  end.

(** A variable is missing when it is unset or set to the empty string. *)
Definition is_missing (os_environ : gmap string string) (key : string) : bool :=
  negb (optional_str_bool (os_environ !! key)).

Definition unset_variables (os_environ : gmap string string) : list string :=
  List.filter (is_unset os_environ) mandatory_variables.

Definition missing_variables (os_environ : gmap string string) : list string :=
  List.filter (is_missing os_environ) mandatory_variables.

(** The names of the pairs whose value is falsy, in the order of the
    pairs: what the loop of [validate] is meant to collect. *)
Definition empty_valued (fields : list (string * string)) : list string :=
  (List.filter (λ field, negb (str_bool field.1)) fields).*2.

(** What [validate] prints for a given list of collected names. *)
Definition diagnostic (missing_fields : list string) : list string :=
  match missing_fields with
  | [] => []
  | _ :: _ => ["Missing required environment variables: "
               +:+ join ", " missing_fields]
  end.

(** The resolution of the vision-model choice in [Config.__init__]
    (lines 89-90), as a function of the environment. *)
Definition resolve_model_choice (os_environ : gmap string string) : string :=
  let model_choice_env := getenv os_environ "MODEL_CHOICE" "florence2" in
  if negb (str_in model_choice_env ["florence2"; "phi3-vision"])
  then "florence2" else model_choice_env.

(** The values of the six mandatory fields of an aggregate. *)
Definition mandatory_values (cfg : Config.t) : list string :=
  (required_fields cfg).*1.

(** An environment with the six mandatory variables set to placeholders. *)
Definition placeholder_environ : gmap string string :=
  <["AZURE_SEARCH_ENDPOINT" := "https://search.example"]>
  (<["AZURE_SEARCH_API_KEY" := "search-key"]>
  (<["AZURE_DOC_INTELLIGENCE_ENDPOINT" := "https://doc.example"]>
  (<["AZURE_DOC_INTELLIGENCE_API_KEY" := "doc-key"]>
  (<["AZURE_OPENAI_ENDPOINT" := "https://openai.example"]>
  (<["AZURE_OPENAI_API_KEY" := "openai-key"]> ∅))))).

(** The variables [Config.__init__] reads with [os.getenv] (lines 74-89):
    the six mandatory ones and the two optional ones. *)
Definition init_variables : list string :=
  mandatory_variables ++ ["AZURE_OPENAI_MODEL"; "MODEL_CHOICE"].

(** An aggregate whose six mandatory fields are filled with placeholders,
    for a given deployment name and device. *)
Definition placeholder_config (deployment_name device : string) : Config.t :=
  Config.mk
    (AzureAISearchConfig.mk "https://search.example" "search-key" "rag-index")
    (AzureDocIntelligenceConfig.mk "https://doc.example" "doc-key")
    (AzureOpenAIConfig.mk "https://openai.example" "openai-key"
       deployment_name "2024-02-01")
    (ModelConfig.mk "florence2" device 1)
    (SystemConfig.mk "./temp" "./patch_matrices" "./manifests" 100 10).

(** ** Basic facts about the runtime helpers *)

Lemma str_bool_true (s : string) : str_bool s = true ↔ s ≠ "".
Proof. destruct s; simpl; split; congruence. Qed.

Lemma str_bool_false (s : string) : str_bool s = false ↔ s = "".
Proof. destruct s; simpl; split; congruence. Qed.

Lemma str_bool_getenv (os_environ : gmap string string) (key : string) :
  str_bool (getenv os_environ key "") = optional_str_bool (os_environ !! key).
Proof. unfold getenv. destruct (os_environ !! key); reflexivity. Qed.

Lemma getenv_unset (os_environ : gmap string string) (key dflt : string) :
  os_environ !! key = None → getenv os_environ key dflt = dflt.
Proof. unfold getenv. intros ->. reflexivity. Qed.

Lemma getenv_set (os_environ : gmap string string) (key dflt v : string) :
  os_environ !! key = Some v → getenv os_environ key dflt = v.
Proof. unfold getenv. intros ->. reflexivity. Qed.

Lemma is_missing_spec (os_environ : gmap string string) (key : string) :
  is_missing os_environ key = true ↔
  os_environ !! key = None ∨ os_environ !! key = Some "".
Proof.
  unfold is_missing. destruct (os_environ !! key) as [[|a s]|]; simpl;
    split; intros H; try (destruct H as [H|H]); try congruence; auto.
Qed.

Lemma list_bool_diagnostic (missing_fields : list string) :
  diagnostic missing_fields =
  if list_bool missing_fields
  then ["Missing required environment variables: "
        +:+ join ", " missing_fields]
  else [].
Proof. destruct missing_fields; reflexivity. Qed.

(** ** The loop of [validate] *)

Lemma foldl_collect_missing (fields : list (string * string))
    (missing_fields : list string) :
  foldl collect_missing missing_fields fields =
  missing_fields ++ empty_valued fields.
Proof.
  revert missing_fields.
  induction fields as [|[value field_name] fields IH]; intros missing_fields.
  - unfold empty_valued. simpl. by rewrite app_nil_r.
  - simpl. rewrite IH. unfold empty_valued. simpl.
    destruct (str_bool value); simpl.
    + reflexivity.
    + by rewrite <- app_assoc.
Qed.

Lemma empty_valued_getenv (os_environ : gmap string string)
    (keys : list string) :
  empty_valued ((λ key, (getenv os_environ key "", key)) <$> keys) =
  List.filter (is_missing os_environ) keys.
Proof.
  unfold empty_valued, is_missing.
  induction keys as [|key keys IH]; simpl.
  - reflexivity.
  - rewrite str_bool_getenv.
    destruct (optional_str_bool (os_environ !! key)); simpl.
    + exact IH.
    + f_equal. exact IH.
Qed.

(** [validate], run in any process state, written out. *)
Lemma validate_run (p : process) :
  validate p =
  let missing_fields := empty_valued (required_fields (instance p)) in
  (Ok (negb (list_bool missing_fields)),
   mk_process (instance p) (stdout p ++ diagnostic missing_fields)).
Proof.
  unfold validate, mbind, Proc_bind, get_self. cbv zeta.
  rewrite !foldl_collect_missing, !app_nil_l.
  destruct (empty_valued (required_fields (instance p))) as [|name names].
  - simpl. rewrite app_nil_r. by destruct p.
  - reflexivity.
Qed.

(** ** [Config.__init__], written out *)

Lemma Config_init_run (c : ModelConfig.cls) (os_environ : gmap string string) :
  Config.init c os_environ =
  Ok (Config.mk
        (AzureAISearchConfig.mk
           (getenv os_environ "AZURE_SEARCH_ENDPOINT" "")
           (getenv os_environ "AZURE_SEARCH_API_KEY" "")
           "rag-index")
        (AzureDocIntelligenceConfig.mk
           (getenv os_environ "AZURE_DOC_INTELLIGENCE_ENDPOINT" "")
           (getenv os_environ "AZURE_DOC_INTELLIGENCE_API_KEY" ""))
        (AzureOpenAIConfig.mk
           (getenv os_environ "AZURE_OPENAI_ENDPOINT" "")
           (getenv os_environ "AZURE_OPENAI_API_KEY" "")
           (getenv os_environ "AZURE_OPENAI_MODEL" "o4-mini")
           "2024-02-01")
        (ModelConfig.mk
           (resolve_model_choice os_environ)
           (ModelConfig.device_default c)
           1)
        (SystemConfig.mk "./temp" "./patch_matrices" "./manifests" 100 10)).
Proof. reflexivity. Qed.

Lemma required_fields_init (c : ModelConfig.cls)
    (os_environ : gmap string string) (cfg : Config.t) :
  Config.init c os_environ = Ok cfg →
  empty_valued (required_fields cfg) = missing_variables os_environ.
Proof.
  rewrite Config_init_run. intros [= <-].
  unfold missing_variables. rewrite <- empty_valued_getenv. reflexivity.
Qed.

Lemma empty_valued_nil (fields : list (string * string)) :
  empty_valued fields = [] ↔ Forall (λ v, v ≠ "") fields.*1.
Proof.
  unfold empty_valued.
  induction fields as [|[value field_name] fields IH]; simpl.
  - split; [constructor | reflexivity].
  - destruct value as [|a value]; simpl.
    + split; [discriminate |].
      intros H. apply Forall_cons in H as [H _]. by destruct H.
    + rewrite Forall_cons. rewrite <- IH. split; [|tauto].
      intros H. split; [discriminate | exact H].
Qed.

Lemma empty_valued_cons (fields : list (string * string)) :
  empty_valued fields ≠ [] ↔ Exists (λ v, v = "") fields.*1.
Proof.
  unfold empty_valued.
  induction fields as [|[value field_name] fields IH]; simpl.
  - split; [congruence | intros H; inversion H].
  - destruct value as [|a value]; simpl.
    + split; [intros _; by left | discriminate].
    + rewrite Exists_cons. rewrite <- IH. split; [tauto |].
      intros [H|H]; [discriminate | exact H].
Qed.

Lemma negb_list_bool_true {A : Type} (l : list A) :
  negb (list_bool l) = true ↔ l = [].
Proof. destruct l; simpl; split; congruence. Qed.

Lemma negb_list_bool_false {A : Type} (l : list A) :
  negb (list_bool l) = false ↔ l ≠ [].
Proof. destruct l; simpl; split; congruence. Qed.

(** ** Properties of the module *)

(** C1: for every environment, [validate()] on the constructed aggregate
    returns [True] exactly when all six mandatory fields (search endpoint
    and api_key, document-extraction endpoint and api_key, language-model
    endpoint and api_key) are non-empty strings, and [False] exactly when
    at least one of them is empty. *)
Theorem validate_true_iff_mandatory_nonempty
    (c : ModelConfig.cls) (os_environ : gmap string string)
    (out : list string) :
  ∃ (cfg : Config.t) (b : bool) (p' : process),
    Config.init c os_environ = Ok cfg ∧
    validate (mk_process cfg out) = (Ok b, p') ∧
    mandatory_values cfg =
      [ AzureAISearchConfig.endpoint (Config.ai_search cfg);
        AzureAISearchConfig.api_key (Config.ai_search cfg);
        AzureDocIntelligenceConfig.endpoint (Config.doc_intelligence cfg);
        AzureDocIntelligenceConfig.api_key (Config.doc_intelligence cfg);
        AzureOpenAIConfig.endpoint (Config.openai cfg);
        AzureOpenAIConfig.api_key (Config.openai cfg) ] ∧
    (b = true ↔ Forall (λ v, v ≠ "") (mandatory_values cfg)) ∧
    (b = false ↔ Exists (λ v, v = "") (mandatory_values cfg)).
Proof.
  rewrite Config_init_run. eexists _, _, _.
  split; [reflexivity |]. rewrite validate_run. cbv zeta.
  split; [reflexivity |]. split; [reflexivity |].
  unfold mandatory_values. split.
  - rewrite negb_list_bool_true. apply empty_valued_nil.
  - rewrite negb_list_bool_false. apply empty_valued_cons.
Qed.

(** C2, as amended: for every environment in which exactly N of the six
    mandatory variables are unset or set to the empty string, [validate()]
    prints a diagnostic if and only if N >= 1, and that single line is
    "Missing required environment variables: " followed by exactly those N
    names, comma-separated, in the order the checks are declared. *)
Theorem validate_diagnostic_lists_missing_variables
    (c : ModelConfig.cls) (os_environ : gmap string string)
    (out : list string) :
  ∃ (cfg : Config.t) (b : bool) (p' : process),
    Config.init c os_environ = Ok cfg ∧
    validate (mk_process cfg out) = (Ok b, p') ∧
    missing_variables os_environ =
      List.filter (is_missing os_environ)
        [ "AZURE_SEARCH_ENDPOINT"; "AZURE_SEARCH_API_KEY";
          "AZURE_DOC_INTELLIGENCE_ENDPOINT"; "AZURE_DOC_INTELLIGENCE_API_KEY";
          "AZURE_OPENAI_ENDPOINT"; "AZURE_OPENAI_API_KEY" ] ∧
    stdout p' =
      out ++
      match missing_variables os_environ with
      | [] => []
      | _ :: _ => [ "Missing required environment variables: "
                    +:+ join ", " (missing_variables os_environ) ]
      end ∧
    (stdout p' ≠ out ↔ (1 ≤ length (missing_variables os_environ))%nat).
Proof.
  destruct (Config.init c os_environ) as [cfg|e] eqn:Hinit;
    [| rewrite Config_init_run in Hinit; discriminate].
  exists cfg. rewrite validate_run. cbv zeta. cbn [instance stdout].
  rewrite (required_fields_init _ _ _ Hinit).
  eexists _, _. split; [reflexivity |]. split; [reflexivity |].
  split; [reflexivity |]. split; [reflexivity |]. simpl.
  destruct (missing_variables os_environ) as [|name names]; simpl.
  - rewrite app_nil_r. split; [congruence | lia].
  - split; [intros _; lia |]. intros _ H.
    apply (f_equal length) in H. rewrite length_app in H. simpl in H. lia.
Qed.

(** C2, as stated, fails: with all six mandatory variables set (none is
    unset, N = 0) but AZURE_SEARCH_ENDPOINT set to the empty string,
    [validate()] still prints a diagnostic, and it names a variable that
    is not unset. *)
Lemma validate_reports_variable_set_to_empty :
  let os_environ := <["AZURE_SEARCH_ENDPOINT" := ""]> placeholder_environ in
  unset_variables os_environ = [] ∧
  ∃ cfg : Config.t,
    Config.init (ModelConfig.class_body os_environ) os_environ = Ok cfg ∧
    validate (mk_process cfg []) =
      (Ok false,
       mk_process cfg
         ["Missing required environment variables: AZURE_SEARCH_ENDPOINT"]).
Proof.
  cbv zeta. split; [vm_compute; reflexivity |].
  eexists. split; [reflexivity |]. vm_compute. reflexivity.
Qed.

(** The scenario of the specification: only AZURE_SEARCH_ENDPOINT is set. *)
Example validate_only_search_endpoint_set :
  let os_environ : gmap string string :=
    {["AZURE_SEARCH_ENDPOINT" := "https://search.example"]} in
  ∃ g : module_globals,
    module_body os_environ = Ok g ∧
    validate (mk_process (config g) []) =
      (Ok false,
       mk_process (config g)
         ["Missing required environment variables: AZURE_SEARCH_API_KEY, AZURE_DOC_INTELLIGENCE_ENDPOINT, AZURE_DOC_INTELLIGENCE_API_KEY, AZURE_OPENAI_ENDPOINT, AZURE_OPENAI_API_KEY"]).
Proof. eexists. split; [reflexivity |]. vm_compute. reflexivity. Qed.

(** The scenario of the specification: the six mandatory variables are set
    to placeholders and nothing else is. *)
Example validate_placeholder_environ :
  ∃ g : module_globals,
    module_body placeholder_environ = Ok g ∧
    validate (mk_process (config g) []) = (Ok true, mk_process (config g) []) ∧
    ModelConfig.model_choice (Config.model (config g)) = "florence2" ∧
    AzureOpenAIConfig.deployment_name (Config.openai (config g)) = "o4-mini" ∧
    SystemConfig.default_k (Config.system (config g)) = 10.
Proof.
  eexists. split; [reflexivity |]. split; [vm_compute; reflexivity |].
  repeat split; vm_compute; reflexivity.
Qed.

(** C3: the language-model record's [deployment_name] defaults to "gpt-4o"
    when its constructor is given no value for it. *)
Theorem AzureOpenAIConfig_deployment_name_default
    (endpoint api_key : string) (api_version : option string) :
  ∃ o : AzureOpenAIConfig.t,
    AzureOpenAIConfig.init (Some endpoint) (Some api_key) None api_version
      = Ok o ∧
    AzureOpenAIConfig.deployment_name o = "gpt-4o".
Proof. eexists. split; reflexivity. Qed.

(** C4: in the aggregate as constructed, [deployment_name] is "o4-mini"
    when AZURE_OPENAI_MODEL is unset, and exactly the variable's value
    (for instance "gpt-4.1") when it is set. *)
Theorem Config_deployment_name_from_environ
    (c : ModelConfig.cls) (os_environ : gmap string string) :
  ∃ cfg : Config.t,
    Config.init c os_environ = Ok cfg ∧
    (os_environ !! "AZURE_OPENAI_MODEL" = None →
       AzureOpenAIConfig.deployment_name (Config.openai cfg) = "o4-mini") ∧
    (∀ v : string, os_environ !! "AZURE_OPENAI_MODEL" = Some v →
       AzureOpenAIConfig.deployment_name (Config.openai cfg) = v) ∧
    (os_environ !! "AZURE_OPENAI_MODEL" = Some "gpt-4.1" →
       AzureOpenAIConfig.deployment_name (Config.openai cfg) = "gpt-4.1").
Proof.
  rewrite Config_init_run. eexists. split; [reflexivity |]. simpl.
  split; [apply getenv_unset |].
  split; [intros v; apply getenv_set | apply getenv_set].
Qed.

Lemma str_in_model_choices (v : string) :
  str_in v ["florence2"; "phi3-vision"] = true ↔
  v = "florence2" ∨ v = "phi3-vision".
Proof.
  unfold str_in. simpl. rewrite !orb_true_iff, !String.eqb_eq.
  split; [intros [H|[H|H]] | intros [H|H]]; auto; discriminate.
Qed.

Lemma resolve_model_choice_spec (os_environ : gmap string string) :
  resolve_model_choice os_environ =
  match os_environ !! "MODEL_CHOICE" with
  | Some v => if decide (v = "phi3-vision") then "phi3-vision" else "florence2"
  | None => "florence2"
  end.
Proof.
  unfold resolve_model_choice, getenv.
  destruct (os_environ !! "MODEL_CHOICE") as [v|]; [| reflexivity].
  destruct (str_in v ["florence2"; "phi3-vision"]) eqn:Hin; simpl.
  - apply str_in_model_choices in Hin as [-> | ->]; reflexivity.
  - case_decide as Hv; [| reflexivity].
    subst v. vm_compute in Hin. discriminate.
Qed.

(** C5: for every environment the constructed [model_choice] is one of
    the two enumerated values: MODEL_CHOICE = "phi3-vision" gives
    "phi3-vision"; MODEL_CHOICE = "florence2", absent, or any other string
    (for instance "gpt4v") gives "florence2"; construction does not
    raise. *)
Theorem Config_model_choice_from_environ
    (c : ModelConfig.cls) (os_environ : gmap string string) :
  ∃ cfg : Config.t,
    Config.init c os_environ = Ok cfg ∧
    let model_choice := ModelConfig.model_choice (Config.model cfg) in
    (model_choice = "florence2" ∨ model_choice = "phi3-vision") ∧
    (os_environ !! "MODEL_CHOICE" = Some "phi3-vision" →
       model_choice = "phi3-vision") ∧
    (os_environ !! "MODEL_CHOICE" = Some "florence2" →
       model_choice = "florence2") ∧
    (os_environ !! "MODEL_CHOICE" = None → model_choice = "florence2") ∧
    (∀ v : string, os_environ !! "MODEL_CHOICE" = Some v →
       v ≠ "florence2" → v ≠ "phi3-vision" → model_choice = "florence2") ∧
    (os_environ !! "MODEL_CHOICE" = Some "gpt4v" →
       model_choice = "florence2").
Proof.
  rewrite Config_init_run. eexists. split; [reflexivity |]. simpl.
  rewrite resolve_model_choice_spec.
  destruct (os_environ !! "MODEL_CHOICE") as [v|].
  - case_decide as Hv.
    + subst v. repeat split; auto; try discriminate.
      intros v [= <-] _ H. by destruct H.
    + repeat split; auto; try congruence.
  - repeat split; auto; discriminate.
Qed.

Lemma module_body_run (os_environ : gmap string string) :
  ∃ cfg : Config.t,
    Config.init (ModelConfig.class_body os_environ) os_environ = Ok cfg ∧
    module_body os_environ =
      Ok (mk_module (ModelConfig.class_body os_environ) cfg).
Proof.
  unfold module_body. rewrite Config_init_run.
  eexists. split; reflexivity.
Qed.

Lemma class_body_device_cpu (os_environ : gmap string string) :
  ModelConfig.device_default (ModelConfig.class_body os_environ) = "cpu" ↔
  os_environ !! "CUDA_AVAILABLE" = None ∨
  os_environ !! "CUDA_AVAILABLE" = Some "".
Proof.
  unfold ModelConfig.class_body, environ_get. simpl.
  destruct (os_environ !! "CUDA_AVAILABLE") as [[|a v]|]; simpl;
    split; intros H; try (destruct H as [H|H]); try discriminate; auto.
Qed.

Lemma class_body_device_cuda (os_environ : gmap string string) (v : string) :
  os_environ !! "CUDA_AVAILABLE" = Some v → v ≠ "" →
  ModelConfig.device_default (ModelConfig.class_body os_environ) = "cuda".
Proof.
  unfold ModelConfig.class_body, environ_get. simpl. intros -> Hv.
  destruct v; [by destruct Hv | reflexivity].
Qed.

(** C6, as amended: the device field equals "cpu" unless CUDA_AVAILABLE
    was set to a truthy value in the environment in which the class body
    of [ModelConfig] ran (the load of the module), in which case it equals
    "cuda".  The resolution happens once, in the class body: the global
    instance built by the same load carries that value, and so does every
    aggregate constructed later, whatever the environment is by then. *)
Theorem device_resolved_once_by_class_body
    (os_environ : gmap string string) :
  ∃ g : module_globals,
    module_body os_environ = Ok g ∧
    ModelConfig.device (Config.model (config g)) =
      (if optional_str_bool (os_environ !! "CUDA_AVAILABLE")
       then "cuda" else "cpu") ∧
    ∀ later_environ : gmap string string,
      ∃ cfg : Config.t,
        Config.init (ModelConfig_cls g) later_environ = Ok cfg ∧
        ModelConfig.device (Config.model cfg) =
          ModelConfig.device (Config.model (config g)).
Proof.
  destruct (module_body_run os_environ) as (cfg & Hinit & ->).
  eexists. split; [reflexivity |].
  rewrite Config_init_run in Hinit. injection Hinit as <-.
  split; [reflexivity |]. intros later_environ.
  rewrite Config_init_run. eexists. split; reflexivity.
Qed.

(** C6, as stated, fails: the module is loaded while CUDA_AVAILABLE is
    unset, the variable is then set to "1", and an aggregate is
    constructed; at construction the variable is truthy, yet the device
    of the new aggregate is "cpu". *)
Lemma device_not_resolved_at_construction :
  let load_environ : gmap string string := ∅ in
  let os_environ : gmap string string := {["CUDA_AVAILABLE" := "1"]} in
  ∃ (g : module_globals) (cfg : Config.t),
    module_body load_environ = Ok g ∧
    Config.init (ModelConfig_cls g) os_environ = Ok cfg ∧
    optional_str_bool (os_environ !! "CUDA_AVAILABLE") = true ∧
    ModelConfig.device (Config.model cfg) = "cpu".
Proof.
  cbv zeta. eexists _, _. split; [reflexivity |].
  split; [reflexivity |]. split; vm_compute; reflexivity.
Qed.

(** C7: for every environment, also one without any of the mandatory
    variables, constructing the aggregate succeeds; an absent mandatory
    variable is recorded as the empty string and an absent optional
    variable as its documented default. *)
Theorem Config_init_never_raises
    (load_environ os_environ : gmap string string) :
  ∃ cfg : Config.t,
    Config.init (ModelConfig.class_body load_environ) os_environ = Ok cfg ∧
    (os_environ !! "AZURE_SEARCH_ENDPOINT" = None →
       AzureAISearchConfig.endpoint (Config.ai_search cfg) = "") ∧
    (os_environ !! "AZURE_SEARCH_API_KEY" = None →
       AzureAISearchConfig.api_key (Config.ai_search cfg) = "") ∧
    (os_environ !! "AZURE_DOC_INTELLIGENCE_ENDPOINT" = None →
       AzureDocIntelligenceConfig.endpoint (Config.doc_intelligence cfg) = "") ∧
    (os_environ !! "AZURE_DOC_INTELLIGENCE_API_KEY" = None →
       AzureDocIntelligenceConfig.api_key (Config.doc_intelligence cfg) = "") ∧
    (os_environ !! "AZURE_OPENAI_ENDPOINT" = None →
       AzureOpenAIConfig.endpoint (Config.openai cfg) = "") ∧
    (os_environ !! "AZURE_OPENAI_API_KEY" = None →
       AzureOpenAIConfig.api_key (Config.openai cfg) = "") ∧
    (os_environ !! "AZURE_OPENAI_MODEL" = None →
       AzureOpenAIConfig.deployment_name (Config.openai cfg) = "o4-mini") ∧
    (os_environ !! "MODEL_CHOICE" = None →
       ModelConfig.model_choice (Config.model cfg) = "florence2") ∧
    (load_environ !! "CUDA_AVAILABLE" = None →
       ModelConfig.device (Config.model cfg) = "cpu").
Proof.
  rewrite Config_init_run. eexists. split; [reflexivity |]. simpl.
  repeat (split; [apply getenv_unset |]).
  split.
  - intros H. rewrite resolve_model_choice_spec, H. reflexivity.
  - intros H. unfold environ_get. rewrite H. reflexivity.
Qed.

(** C8: [validate()] never raises, whatever the state of the aggregate,
    and leaves every field of the aggregate unchanged: it returns a
    boolean and prints at most one line. *)
Theorem validate_never_raises_and_preserves_instance (p : process) :
  ∃ (b : bool) (p' : process),
    validate p = (Ok b, p') ∧
    instance p' = instance p ∧
    (stdout p' = stdout p ∨ ∃ line : string, stdout p' = stdout p ++ [line]).
Proof.
  rewrite validate_run. cbv zeta. eexists _, _.
  split; [reflexivity |]. split; [reflexivity |]. simpl.
  destruct (empty_valued (required_fields (instance p))); simpl.
  - left. apply app_nil_r.
  - right. eexists. reflexivity.
Qed.

(** C9: for every environment, the fields that the environment cannot
    configure have their literal defaults: index_name = "rag-index",
    api_version = "2024-02-01", batch_size = 1, temp_dir = "./temp",
    patch_matrix_dir = "./patch_matrices", manifest_dir = "./manifests",
    max_pages_per_doc = 100, default_k = 10. *)
Theorem Config_fixed_defaults
    (c : ModelConfig.cls) (os_environ : gmap string string) :
  ∃ cfg : Config.t,
    Config.init c os_environ = Ok cfg ∧
    AzureAISearchConfig.index_name (Config.ai_search cfg) = "rag-index" ∧
    AzureOpenAIConfig.api_version (Config.openai cfg) = "2024-02-01" ∧
    ModelConfig.batch_size (Config.model cfg) = 1 ∧
    SystemConfig.temp_dir (Config.system cfg) = "./temp" ∧
    SystemConfig.patch_matrix_dir (Config.system cfg) = "./patch_matrices" ∧
    SystemConfig.manifest_dir (Config.system cfg) = "./manifests" ∧
    SystemConfig.max_pages_per_doc (Config.system cfg) = 100 ∧
    SystemConfig.default_k (Config.system cfg) = 10.
Proof.
  rewrite Config_init_run. eexists. split; [reflexivity |].
  repeat split.
Qed.

(** C10: CUDA_AVAILABLE is read by string non-emptiness, not parsed as a
    boolean: whenever it is set to a non-empty string, "0", "false" and
    "no" included, the device field is "cuda"; the field is "cpu" only
    when the variable is unset or set to the empty string. *)
Theorem device_by_string_nonemptiness (os_environ : gmap string string) :
  ∃ g : module_globals,
    module_body os_environ = Ok g ∧
    let device := ModelConfig.device (Config.model (config g)) in
    (device = "cuda" ∨ device = "cpu") ∧
    (∀ v : string, os_environ !! "CUDA_AVAILABLE" = Some v → v ≠ "" →
       device = "cuda") ∧
    (os_environ !! "CUDA_AVAILABLE" = Some "0" → device = "cuda") ∧
    (os_environ !! "CUDA_AVAILABLE" = Some "false" → device = "cuda") ∧
    (os_environ !! "CUDA_AVAILABLE" = Some "no" → device = "cuda") ∧
    (device = "cpu" ↔
       os_environ !! "CUDA_AVAILABLE" = None ∨
       os_environ !! "CUDA_AVAILABLE" = Some "").
Proof.
  destruct (module_body_run os_environ) as (cfg & Hinit & ->).
  eexists. split; [reflexivity |].
  rewrite Config_init_run in Hinit. injection Hinit as <-.
  cbv zeta. cbn [config Config.model ModelConfig.device].
  split.
  - unfold ModelConfig.class_body. simpl.
    destruct (optional_str_bool _); auto.
  - split; [apply class_body_device_cuda |].
    repeat (split;
      [intros H; by apply (class_body_device_cuda _ _ H) |]).
    apply class_body_device_cpu.
Qed.

(** ** Further properties: [validate] and [__init__] together *)

Lemma filter_is_missing_nil (os_environ : gmap string string)
    (keys : list string) :
  List.filter (is_missing os_environ) keys = [] ↔
  Forall (λ key, ∃ v : string, os_environ !! key = Some v ∧ v ≠ "") keys.
Proof.
  induction keys as [|key keys IH]; simpl.
  - split; [constructor | reflexivity].
  - rewrite Forall_cons, <- IH. unfold is_missing at 1.
    destruct (os_environ !! key) as [[|a v]|]; simpl.
    + split; [discriminate | intros [(v & [= <-] & Hv) _]; by destruct Hv].
    + split; [| tauto]. intros H. split; [| exact H].
      eexists. split; [reflexivity | discriminate].
    + split; [discriminate | intros [(v & [=] & _) _]].
Qed.

Lemma filter_is_missing_cons (os_environ : gmap string string)
    (keys : list string) :
  List.filter (is_missing os_environ) keys ≠ [] ↔
  Exists (λ key, os_environ !! key = None ∨ os_environ !! key = Some "") keys.
Proof.
  induction keys as [|key keys IH]; simpl.
  - split; [congruence | intros H; inversion H].
  - rewrite Exists_cons, <- IH. unfold is_missing at 1.
    destruct (os_environ !! key) as [[|a v]|]; simpl.
    + split; [intros _; left; by right | discriminate].
    + split; [tauto |]. intros [[H|H]|H]; [discriminate.. | exact H].
    + split; [intros _; left; by left | discriminate].
Qed.

(** [validate] on the aggregate constructed from [os_environ]. *)
Lemma validate_init_run (c : ModelConfig.cls)
    (os_environ : gmap string string) (out : list string) :
  ∃ cfg : Config.t,
    Config.init c os_environ = Ok cfg ∧
    validate (mk_process cfg out) =
      (Ok (negb (list_bool (missing_variables os_environ))),
       mk_process cfg (out ++ diagnostic (missing_variables os_environ))).
Proof.
  destruct (Config.init c os_environ) as [cfg|e] eqn:Hinit;
    [| rewrite Config_init_run in Hinit; discriminate].
  exists cfg. split; [reflexivity |].
  rewrite validate_run. cbv zeta. cbn [instance stdout].
  by rewrite (required_fields_init _ _ _ Hinit).
Qed.

(** X1: constructing the aggregate from an environment and validating it
    returns [True] exactly when each of the six mandatory variables is set
    to a non-empty string, and [False] exactly when one of them is unset
    or set to the empty string. *)
Theorem validate_true_iff_variables_provided
    (c : ModelConfig.cls) (os_environ : gmap string string)
    (out : list string) :
  ∃ (cfg : Config.t) (b : bool) (p' : process),
    Config.init c os_environ = Ok cfg ∧
    validate (mk_process cfg out) = (Ok b, p') ∧
    (b = true ↔
       Forall (λ key, ∃ v : string, os_environ !! key = Some v ∧ v ≠ "")
         mandatory_variables) ∧
    (b = false ↔
       Exists (λ key, os_environ !! key = None ∨ os_environ !! key = Some "")
         mandatory_variables).
Proof.
  destruct (validate_init_run c os_environ out) as (cfg & Hinit & Hrun).
  exists cfg. eexists _, _. split; [exact Hinit |]. split; [exact Hrun |].
  unfold missing_variables. split.
  - rewrite negb_list_bool_true. apply filter_is_missing_nil.
  - rewrite negb_list_bool_false. apply filter_is_missing_cons.
Qed.



(** X3: [validate] can be called again: a second call right after the
    first returns the same boolean, leaves the aggregate as it was, and
    prints the same diagnostic once more (nothing is remembered between
    calls). *)
Theorem validate_repeatable (p : process) :
  ∃ (b : bool) (p1 p2 : process) (d : list string),
    validate p = (Ok b, p1) ∧
    validate p1 = (Ok b, p2) ∧
    instance p2 = instance p ∧
    stdout p1 = stdout p ++ d ∧
    stdout p2 = stdout p ++ d ++ d.
Proof.
  rewrite validate_run. cbv zeta. eexists _, _, _, _.
  split; [reflexivity |]. rewrite validate_run. cbv zeta.
  cbn [instance stdout]. split; [reflexivity |].
  split; [reflexivity |]. split; [reflexivity |].
  cbn [stdout]. by rewrite <- app_assoc.
Qed.

Lemma required_fields_mandatory_values (cfg : Config.t) :
  required_fields cfg = zip (mandatory_values cfg) mandatory_variables.
Proof. reflexivity. Qed.

(** X4: [validate] looks at the six mandatory fields and at nothing else:
    two aggregates that agree on those six values get the same boolean
    and the same printed lines, however their other fields (index name,
    deployment name, model choice, device, system parameters) differ. *)
Theorem validate_depends_on_mandatory_values_only
    (cfg1 cfg2 : Config.t) (out : list string) :
  mandatory_values cfg1 = mandatory_values cfg2 →
  ∃ (b : bool) (d : list string),
    validate (mk_process cfg1 out) = (Ok b, mk_process cfg1 (out ++ d)) ∧
    validate (mk_process cfg2 out) = (Ok b, mk_process cfg2 (out ++ d)).
Proof.
  intros Hvalues. rewrite !validate_run. cbv zeta. cbn [instance stdout].
  rewrite !required_fields_mandatory_values, Hvalues.
  eexists _, _. split; reflexivity.
Qed.

Lemma validate_depends_on_mandatory_values_only_witness :
  mandatory_values (placeholder_config "" "cpu") =
    mandatory_values (placeholder_config "gpt-4.1" "cuda") ∧
  ∃ (b : bool) (d : list string),
    validate (mk_process (placeholder_config "" "cpu") []) =
      (Ok b, mk_process (placeholder_config "" "cpu") ([] ++ d)) ∧
    validate (mk_process (placeholder_config "gpt-4.1" "cuda") []) =
      (Ok b, mk_process (placeholder_config "gpt-4.1" "cuda") ([] ++ d)).
Proof.
  split; [reflexivity |].
  apply (validate_depends_on_mandatory_values_only
           (placeholder_config "" "cpu") (placeholder_config "gpt-4.1" "cuda")).
  reflexivity.
Defined.

(** X5: [Config.__init__] reads eight variables and no other: two
    environments that agree on the six mandatory variables, on
    AZURE_OPENAI_MODEL and on MODEL_CHOICE give the same aggregate.  Any
    other variable (CUDA_AVAILABLE, the AZURE_STORAGE_* names of the
    commented-out blob record) has no effect on construction. *)
Theorem Config_init_reads_only_init_variables
    (c : ModelConfig.cls) (os_environ1 os_environ2 : gmap string string) :
  Forall (λ key, os_environ1 !! key = os_environ2 !! key) init_variables →
  Config.init c os_environ1 = Config.init c os_environ2.
Proof.
  intros Hagree. rewrite !Config_init_run.
  unfold resolve_model_choice, getenv.
  unfold init_variables, mandatory_variables in Hagree. simpl in Hagree.
  repeat (apply Forall_cons in Hagree as [-> Hagree]).
  reflexivity.
Qed.

Lemma Config_init_reads_only_init_variables_witness :
  let os_environ2 : gmap string string :=
    <["CUDA_AVAILABLE" := "1"]>
      (<["AZURE_STORAGE_ACCOUNT_NAME" := "account"]> placeholder_environ) in
  Forall (λ key, placeholder_environ !! key = os_environ2 !! key)
    init_variables ∧
  Config.init (ModelConfig.class_body ∅) placeholder_environ =
    Config.init (ModelConfig.class_body ∅) os_environ2.
Proof.
  cbv zeta.
  assert (Forall
    (λ key, placeholder_environ !! key =
       (<["CUDA_AVAILABLE" := "1"]>
          (<["AZURE_STORAGE_ACCOUNT_NAME" := "account"]> placeholder_environ))
       !! key) init_variables) as Hagree.
  { repeat constructor. }
  split; [exact Hagree |].
  exact (Config_init_reads_only_init_variables _ _ _ Hagree).
Defined.

(** X6: [__init__] and [validate] name the variables alike: in the
    constructed aggregate, each of the six pairs [validate] checks holds
    the value of the very variable whose name it reports (the empty string
    when that variable is unset), in the declared order. *)
Theorem required_fields_names_match_variables
    (c : ModelConfig.cls) (os_environ : gmap string string) :
  ∃ cfg : Config.t,
    Config.init c os_environ = Ok cfg ∧
    required_fields cfg =
      (λ key, (default "" (os_environ !! key), key)) <$> mandatory_variables.
Proof.
  rewrite Config_init_run. eexists. split; reflexivity.
Qed.

Lemma is_missing_insert (os_environ : gmap string string)
    (key v name : string) :
  v ≠ "" →
  is_missing (<[key := v]> os_environ) name =
  negb (String.eqb name key) && is_missing os_environ name.
Proof.
  intros Hv. unfold is_missing. rewrite lookup_insert.
  case_decide as Hkey.
  - subst name. rewrite String.eqb_refl. simpl.
    destruct v; [by destruct Hv | reflexivity].
  - apply not_eq_sym, String.eqb_neq in Hkey. rewrite Hkey. reflexivity.
Qed.

Lemma filter_is_missing_insert (os_environ : gmap string string)
    (key v : string) (keys : list string) :
  v ≠ "" →
  List.filter (is_missing (<[key := v]> os_environ)) keys =
  List.filter (λ name, negb (String.eqb name key))
    (List.filter (is_missing os_environ) keys).
Proof.
  intros Hv. induction keys as [|name keys IH]; simpl; [reflexivity |].
  rewrite (is_missing_insert _ _ _ _ Hv), IH.
  destruct (is_missing os_environ name); simpl.
  - rewrite andb_true_r. reflexivity.
  - rewrite andb_false_r. reflexivity.
Qed.

(** X7: setting one variable to a non-empty value repairs that variable
    and nothing else: the aggregate constructed afterwards is reported
    with the names that were missing before, minus the variable just set,
    in the same order; [validate] returns [True] exactly when no name is
    left. *)
Theorem validate_after_setting_variable
    (c : ModelConfig.cls) (os_environ : gmap string string)
    (key v : string) (out : list string) :
  v ≠ "" →
  let still_missing :=
    List.filter (λ name, negb (String.eqb name key))
      (missing_variables os_environ) in
  ∃ cfg : Config.t,
    Config.init c (<[key := v]> os_environ) = Ok cfg ∧
    validate (mk_process cfg out) =
      (Ok (negb (list_bool still_missing)),
       mk_process cfg (out ++ diagnostic still_missing)).
Proof.
  intros Hv still_missing.
  destruct (validate_init_run c (<[key := v]> os_environ) out)
    as (cfg & Hinit & Hrun).
  exists cfg. split; [exact Hinit |]. rewrite Hrun.
  unfold missing_variables, still_missing.
  by rewrite (filter_is_missing_insert _ _ _ _ Hv).
Qed.

Lemma validate_after_setting_variable_witness :
  "search-key" ≠ "" ∧
  ∃ cfg : Config.t,
    Config.init (ModelConfig.class_body ∅)
      (<["AZURE_SEARCH_API_KEY" := "search-key"]>
         (<["AZURE_SEARCH_ENDPOINT" := "https://search.example"]> ∅)) = Ok cfg ∧
    validate (mk_process cfg []) =
      (Ok false,
       mk_process cfg
         ["Missing required environment variables: AZURE_DOC_INTELLIGENCE_ENDPOINT, AZURE_DOC_INTELLIGENCE_API_KEY, AZURE_OPENAI_ENDPOINT, AZURE_OPENAI_API_KEY"]).
Proof.
  split; [discriminate |].
  exact (validate_after_setting_variable (ModelConfig.class_body ∅)
           (<["AZURE_SEARCH_ENDPOINT" := "https://search.example"]> ∅)
           "AZURE_SEARCH_API_KEY" "search-key" []
           ltac:(discriminate)).
Defined.

Lemma empty_valued_sublist (fields : list (string * string)) :
  empty_valued fields `sublist_of` fields.*2.
Proof.
  unfold empty_valued.
  induction fields as [|[value field_name] fields IH]; simpl.
  - constructor.
  - destruct (str_bool value); simpl.
    + by apply sublist_cons.
    + by apply sublist_skip.
Qed.

Lemma empty_valued_length (fields : list (string * string)) :
  (length (empty_valued fields) + length (List.filter str_bool fields.*1)
   = length fields)%nat.
Proof.
  unfold empty_valued. rewrite length_fmap.
  induction fields as [|[value field_name] fields IH]; simpl.
  - reflexivity.
  - unfold fmap in IH. destruct (str_bool value); simpl; lia.
Qed.

Lemma mandatory_variables_NoDup : NoDup mandatory_variables.
Proof.
  apply (bool_decide_unpack _). vm_compute. exact I.
Qed.

(** X8: whatever the aggregate holds, the names [validate] reports are
    taken from the six declared names, in the declared order and without
    repetition, and there is one name per empty mandatory field: reported
    names and non-empty mandatory fields add up to six. *)
Theorem validate_reports_declared_names_in_order (p : process) :
  ∃ (b : bool) (names : list string),
    validate p =
      (Ok b, mk_process (instance p) (stdout p ++ diagnostic names)) ∧
    names `sublist_of` mandatory_variables ∧
    NoDup names ∧
    (length names
     + length (List.filter str_bool (mandatory_values (instance p))) = 6)%nat.
Proof.
  rewrite validate_run. cbv zeta. eexists _, _. split; [reflexivity |].
  pose proof (empty_valued_sublist (required_fields (instance p))) as Hsub.
  change (required_fields (instance p)).*2 with mandatory_variables in Hsub.
  split; [exact Hsub |]. split.
  - exact (sublist_NoDup _ _ mandatory_variables_NoDup Hsub).
  - apply (empty_valued_length (required_fields (instance p))).
Qed.

(** X9: [validate] never looks at the deployment name: when the six
    mandatory variables are set to non-empty strings and
    AZURE_OPENAI_MODEL is set to the empty string, the aggregate is
    constructed with an empty [deployment_name] (the default "o4-mini"
    applies only to an unset variable) and [validate] still returns [True]
    and prints nothing. *)
Theorem validate_accepts_empty_deployment_name
    (c : ModelConfig.cls) (os_environ : gmap string string)
    (out : list string) :
  Forall (λ key, ∃ v : string, os_environ !! key = Some v ∧ v ≠ "")
    mandatory_variables →
  os_environ !! "AZURE_OPENAI_MODEL" = Some "" →
  ∃ cfg : Config.t,
    Config.init c os_environ = Ok cfg ∧
    AzureOpenAIConfig.deployment_name (Config.openai cfg) = "" ∧
    validate (mk_process cfg out) = (Ok true, mk_process cfg out).
Proof.
  intros Hset Hmodel.
  destruct (validate_init_run c os_environ out) as (cfg & Hinit & Hrun).
  exists cfg. split; [exact Hinit |]. split.
  - rewrite Config_init_run in Hinit. injection Hinit as <-.
    simpl. by apply getenv_set.
  - rewrite Hrun. apply filter_is_missing_nil in Hset.
    unfold missing_variables. rewrite Hset. simpl.
    by rewrite app_nil_r.
Qed.

Lemma validate_accepts_empty_deployment_name_witness :
  let os_environ : gmap string string :=
    <["AZURE_OPENAI_MODEL" := ""]> placeholder_environ in
  ∃ cfg : Config.t,
    Config.init (ModelConfig.class_body os_environ) os_environ = Ok cfg ∧
    AzureOpenAIConfig.deployment_name (Config.openai cfg) = "" ∧
    validate (mk_process cfg []) = (Ok true, mk_process cfg []).
Proof.
  cbv zeta.
  apply (validate_accepts_empty_deployment_name
           (ModelConfig.class_body
              (<["AZURE_OPENAI_MODEL" := ""]> placeholder_environ))
           (<["AZURE_OPENAI_MODEL" := ""]> placeholder_environ) []).
  - repeat (constructor;
      [eexists; split; [reflexivity | discriminate] |]).
    constructor.
  - reflexivity.
Defined.
